(** * Inventory Management System: a shallow embedding of [inventory_system.py]

    The module keeps one global dictionary [stock_data] (item name to
    quantity) and offers [add_item], [remove_item], [get_qty], [load_data],
    [save_data], [print_data] and [check_low_items].  Python is dynamically
    typed, so the arguments of these functions are modelled as values of a
    small universe of Python objects ([pyval]); exceptions, console output
    and the file system are explicit. *)

From Stdlib Require Import ZArith List String Ascii Bool Lia.
From Stdlib Require Import Floats.SpecFloat.
From stdpp Require Import gmap strings.
Import ListNotations.

Set Warnings "-register-all".

Local Open Scope string_scope.
Local Open Scope list_scope.
Local Open Scope Z_scope.

(** ** Python values *)

(** The exception classes the module can meet. *)
Inductive exn : Type :=
| TypeError
| KeyError
| OverflowError
| FileNotFoundError
| IsADirectoryError
| PermissionError
| JSONDecodeError.

(** [IOError] is an alias of [OSError]; these are its subclasses here. *)
Definition is_IOError (e : exn) : bool :=
  match e with
  | FileNotFoundError | IsADirectoryError | PermissionError => true
  | _ => false
  end.

(** The objects that reach the module: what a caller passes and what
    [json.load] builds.  [int] is unbounded; [float] is IEEE binary64,
    modelled exactly by [spec_float]; [str] is a sequence of characters;
    a [dict] is an insertion-ordered list of bindings with string keys. *)
Inductive pyval : Type :=
| PNone
| PBool (b : bool)
| PInt (z : Z)
| PFloat (f : spec_float)
| PStr (s : string)
| PList (l : list pyval)
| PDict (d : list (string * pyval)).

Definition dict : Type := list (string * pyval).

(** Result of evaluating a Python expression: a value or a raised exception. *)
Inductive outcome (A : Type) : Type :=
| Return (a : A)
| Raise (e : exn).
Arguments Return {A} a.
Arguments Raise {A} e.

(** *** Dictionaries in insertion order *)

Fixpoint dict_get (k : string) (d : dict) : option pyval :=
  match d with
  | [] => None
  | (k', v) :: d' => if String.eqb k k' then Some v else dict_get k d'
  end.

(** [d[k] = v]: an existing key keeps its position, a new key goes last. *)
Fixpoint dict_set (k : string) (v : pyval) (d : dict) : dict :=
  match d with
  | [] => [(k, v)]
  | (k', v') :: d' =>
      if String.eqb k k' then (k, v) :: d' else (k', v') :: dict_set k v d'
  end.

(** [del d[k]] (for a key that is present). *)
Fixpoint dict_del (k : string) (d : dict) : dict :=
  match d with
  | [] => []
  | (k', v') :: d' =>
      if String.eqb k k' then dict_del k d' else (k', v') :: dict_del k d'
  end.

Definition dict_keys (d : dict) : list string := map fst d.

(** A Python dict has no two bindings for one key. *)
Definition dict_wf (d : dict) : Prop := List.NoDup (dict_keys d).

(** *** Numbers *)

Definition prec : Z := 53.
Definition emax : Z := 1024.

Inductive num : Type :=
| NInt (z : Z)
| NFloat (f : spec_float).

(** [bool] is a subclass of [int]: [True] is 1 and [False] is 0. *)
Definition as_num (v : pyval) : option num :=
  match v with
  | PBool b => Some (NInt (Z.b2z b))
  | PInt z => Some (NInt z)
  | PFloat f => Some (NFloat f)
  | _ => None
  end.

Definition as_int (v : pyval) : option Z :=
  match v with
  | PBool b => Some (Z.b2z b)
  | PInt z => Some z
  | _ => None
  end.

(** Conversion of an [int] operand in mixed arithmetic: round to nearest
    even, [OverflowError] when the result is out of range. *)
Definition float_of_int (z : Z) : outcome spec_float :=
  match binary_normalize prec emax z 0 false with
  | S754_infinity _ => Raise OverflowError
  | f => Return f
  end.

Definition num_arith (fz : Z -> Z -> Z)
    (ff : spec_float -> spec_float -> spec_float) (x y : num) : outcome pyval :=
  match x, y with
  | NInt a, NInt b => Return (PInt (fz a b))
  | NInt a, NFloat g =>
      match float_of_int a with
      | Return f => Return (PFloat (ff f g))
      | Raise e => Raise e
      end
  | NFloat f, NInt b =>
      match float_of_int b with
      | Return g => Return (PFloat (ff f g))
      | Raise e => Raise e
      end
  | NFloat f, NFloat g => Return (PFloat (ff f g))
  end.

(** Exact comparison of a float with an integer ([None]: unordered). *)
Definition float_compare_int (f : spec_float) (z : Z) : option comparison :=
  match f with
  | S754_nan => None
  | S754_infinity s => Some (if s then Lt else Gt)
  | S754_zero _ => Some (0 ?= z)
  | S754_finite s m e =>
      let mz := if s then Zneg m else Zpos m in
      Some (if 0 <=? e then (mz * 2 ^ e ?= z) else (mz ?= z * 2 ^ (- e)))
  end.

Definition num_compare (x y : num) : option comparison :=
  match x, y with
  | NInt a, NInt b => Some (a ?= b)
  | NFloat f, NFloat g => SFcompare f g
  | NFloat f, NInt b => float_compare_int f b
  | NInt a, NFloat g => option_map CompOpp (float_compare_int g a)
  end.

(** *** Operators *)

(** [a + b] *)
Definition py_add (a b : pyval) : outcome pyval :=
  match a, b with
  | PStr s, PStr t => Return (PStr (String.append s t))
  | PList l, PList m => Return (PList (l ++ m))
  | _, _ =>
      match as_num a, as_num b with
      | Some x, Some y => num_arith Z.add (SFadd prec emax) x y
      | _, _ => Raise TypeError
      end
  end.

(** [a - b] *)
Definition py_sub (a b : pyval) : outcome pyval :=
  match as_num a, as_num b with
  | Some x, Some y => num_arith Z.sub (SFsub prec emax) x y
  | _, _ => Raise TypeError
  end.

(** [a == b] *)
Fixpoint py_eq (a b : pyval) {struct a} : bool :=
  match a, b with
  | PNone, PNone => true
  | PStr s, PStr t => String.eqb s t
  | PList l, PList m =>
      (fix all2 (l m : list pyval) {struct l} : bool :=
         match l, m with
         | [], [] => true
         | x :: l', y :: m' => py_eq x y && all2 l' m'
         | _, _ => false
         end) l m
  | PDict d, PDict d' =>
      Nat.eqb (List.length d) (List.length d') &&
      (fix sub (d : list (string * pyval)) {struct d} : bool :=
         match d with
         | [] => true
         | (k, v) :: r =>
             match dict_get k d' with
             | Some v' => py_eq v v' && sub r
             | None => false
             end
         end) d
  | _, _ =>
      match as_num a, as_num b with
      | Some x, Some y =>
          match num_compare x y with Some Eq => true | _ => false end
      | _, _ => false
      end
  end.

Inductive cmpop : Type := OpLt | OpLe.

Definition cmp_holds (op : cmpop) (c : option comparison) : bool :=
  match op, c with
  | _, Some Lt => true
  | OpLe, Some Eq => true
  | _, _ => false
  end.

(** [a < b] and [a <= b]: numbers compare by value, strings and lists
    lexicographically, anything else is a [TypeError]. *)
Fixpoint py_richcmp (op : cmpop) (a b : pyval) {struct a} : outcome bool :=
  match a, b with
  | PStr s, PStr t => Return (cmp_holds op (Some (String.compare s t)))
  | PList l, PList m =>
      (fix lex (l m : list pyval) {struct l} : outcome bool :=
         match l, m with
         | [], [] => Return (cmp_holds op (Some Eq))
         | [], _ :: _ => Return true
         | _ :: _, [] => Return false
         | x :: l', y :: m' =>
             if py_eq x y then lex l' m' else py_richcmp op x y
         end) l m
  | _, _ =>
      match as_num a, as_num b with
      | Some x, Some y => Return (cmp_holds op (num_compare x y))
      | _, _ => Raise TypeError
      end
  end.

Definition py_lt : pyval -> pyval -> outcome bool := py_richcmp OpLt.
Definition py_le : pyval -> pyval -> outcome bool := py_richcmp OpLe.

(** Truth value of an object ([not item] tests its negation). *)
Definition py_truthy (v : pyval) : bool :=
  match v with
  | PNone => false
  | PBool b => b
  | PInt z => negb (z =? 0)
  | PFloat (S754_zero _) => false
  | PFloat _ => true
  | PStr s => negb (String.eqb s "")
  | PList l => match l with [] => false | _ => true end
  | PDict d => match d with [] => false | _ => true end
  end.

(** [isinstance(v, int)] *)
Definition isinstance_int (v : pyval) : bool :=
  match v with PBool _ | PInt _ => true | _ => false end.

(** [isinstance(v, str)] *)
Definition isinstance_str (v : pyval) : bool :=
  match v with PStr _ => true | _ => false end.

(** Lists and dicts cannot be hashed, hence cannot be looked up in a dict. *)
Definition hashable (v : pyval) : bool :=
  match v with PList _ | PDict _ => false | _ => true end.

(** Hashing an object that is used as a key of [stock_data].  Every key of
    the dictionary is a string (only [add_item] and [json.load] create
    keys), so a hashable object that is not a string matches no key. *)
Definition key_of (item : pyval) : outcome (option string) :=
  match item with
  | PStr s => Return (Some s)
  | PList _ | PDict _ => Raise TypeError
  | _ => Return None
  end.

(** ** Program state *)

(** What a file holds, up to JSON parsing: the text of a JSON object, or
    text that [json.load] rejects.  (A file holding a JSON document that is
    not an object would turn [stock_data] into something other than a
    mapping; such files are outside this model.) *)
Inductive content : Type :=
| JsonObject (d : dict)
| Malformed.

Inductive node : Type :=
| RegFile (c : content) (writable : bool)
| Directory.

(** Lines written to the console by [print]. *)
Inductive message : Type :=
| MsgNotFound (item : pyval)
    (* Warning: Item '{item}' not found in inventory *)
| MsgRemoveError (item : pyval) (e : exn)
    (* Error removing item '{item}': {e} *)
| MsgFileNotFound (file : string)
    (* Warning: File '{file}' not found. Starting with empty inventory. *)
| MsgDecodeError (file : string) (e : exn)
    (* Error decoding JSON from '{file}': {e} *)
| MsgSaveError (file : string) (e : exn)
    (* Error saving data to '{file}': {e} *)
| MsgReportHeader
    (* Items Report *)
| MsgReportLine (item : string) (v : pyval)
    (* {item} -> {stock_data[item]} *)
| MsgAppleStock (v : pyval)
    (* Apple stock: {get_qty('apple')} *)
| MsgLowItems (l : list string)
    (* Low items: {check_low_items()} *)
| MsgCompleted.
    (* Inventory operations completed successfully *)

(** An entry appended to the caller's log list:
    [f"{datetime.now()}: Added {qty} of {item}"]. *)
Record log_entry : Type := LogAdded
  { log_time : nat; log_qty : pyval; log_item : string }.

Record world : Type := World
  { stock_data : dict;            (* the global variable *)
    files : gmap string node;     (* the file system *)
    stdout : list message;        (* console output so far *)
    clock : nat }.                (* what [datetime.now()] reads *)

Definition with_stock (d : dict) (w : world) : world :=
  {| stock_data := d; files := files w; stdout := stdout w;
     clock := clock w |}.

Definition with_stdout (out : list message) (w : world) : world :=
  {| stock_data := stock_data w; files := files w; stdout := out;
     clock := clock w |}.

Definition with_files (fs : gmap string node) (w : world) : world :=
  {| stock_data := stock_data w; files := fs; stdout := stdout w;
     clock := clock w |}.

(** ** A state and exception monad for Python statements *)

Definition py (A : Type) : Type := world -> outcome A * world.

Definition ret {A} (a : A) : py A := fun w => (Return a, w).

Definition raise {A} (e : exn) : py A := fun w => (Raise e, w).

Definition lift {A} (o : outcome A) : py A := fun w => (o, w).

Definition bind {A B} (m : py A) (k : A -> py B) : py B :=
  fun w =>
    match m w with
    | (Return a, w') => k a w'
    | (Raise e, w') => (Raise e, w')
    end.

Declare Scope py_scope.
Delimit Scope py_scope with py.
Notation "x <- c1 ;; c2" := (bind c1 (fun x => c2))
  (at level 100, c1 at next level, right associativity) : py_scope.
Notation "c1 ;; c2" := (bind c1 (fun _ => c2))
  (at level 100, right associativity) : py_scope.
Local Open Scope py_scope.

(** [try: body except ...]: [handlers e] is the clause that matches [e],
    if any; an exception raised inside a handler is not caught again. *)
Definition try_except {A} (body : py A) (handlers : exn -> option (py A))
  : py A :=
  fun w =>
    match body w with
    | (Return a, w') => (Return a, w')
    | (Raise e, w') =>
        match handlers e with
        | Some h => h w'
        | None => (Raise e, w')
        end
    end.

Definition get_stock : py dict := fun w => (Return (stock_data w), w).

Definition set_stock (d : dict) : py unit :=
  fun w => (Return tt, with_stock d w).

Definition print (m : message) : py unit :=
  fun w => (Return tt, with_stdout (stdout w ++ [m]) w).

Definition datetime_now : py nat := fun w => (Return (clock w), w).

Fixpoint for_each {A} (l : list A) (body : A -> py unit) : py unit :=
  match l with
  | [] => ret tt
  | x :: r => body x ;; for_each r body
  end.

(** *** Statements on [stock_data] *)

(** [item in stock_data] *)
Definition stock_contains (item : pyval) : py bool :=
  k <- lift (key_of item) ;;
  d <- get_stock ;;
  ret match k with
      | Some s => match dict_get s d with Some _ => true | None => false end
      | None => false
      end.

(** [stock_data[item]] *)
Definition stock_getitem (item : pyval) : py pyval :=
  k <- lift (key_of item) ;;
  d <- get_stock ;;
  match k with
  | Some s =>
      match dict_get s d with
      | Some v => ret v
      | None => raise KeyError
      end
  | None => raise KeyError
  end.

(** [stock_data.get(item, default)] *)
Definition stock_get (item default : pyval) : py pyval :=
  k <- lift (key_of item) ;;
  d <- get_stock ;;
  ret match k with
      | Some s =>
          match dict_get s d with Some v => v | None => default end
      | None => default
      end.

(** [stock_data[item] -= qty]: read, subtract, then write back. *)
Definition stock_isub (item qty : pyval) : py unit :=
  k <- lift (key_of item) ;;
  d <- get_stock ;;
  match k with
  | Some s =>
      match dict_get s d with
      | Some cur =>
          new <- lift (py_sub cur qty) ;;
          set_stock (dict_set s new d)
      | None => raise KeyError
      end
  | None => raise KeyError
  end.

(** [del stock_data[item]] *)
Definition stock_delitem (item : pyval) : py unit :=
  k <- lift (key_of item) ;;
  d <- get_stock ;;
  match k with
  | Some s =>
      match dict_get s d with
      | Some _ => set_stock (dict_del s d)
      | None => raise KeyError
      end
  | None => raise KeyError
  end.

(** *** Files *)

(** [open(file, "r")] followed by reading the whole file. *)
Definition open_read (file : string) : py content :=
  fun w =>
    if String.eqb file "" then (Raise FileNotFoundError, w)
    else
      match files w !! file with
      | None => (Raise FileNotFoundError, w)
      | Some Directory => (Raise IsADirectoryError, w)
      | Some (RegFile c _) => (Return c, w)
      end.

Definition write_file (file : string) (c : content) (w : world) : world :=
  with_files (<[file := RegFile c true]> (files w)) w.

(** [open(file, "w")]: creates the file or truncates it. *)
Definition open_write (file : string) : py unit :=
  fun w =>
    if String.eqb file "" then (Raise FileNotFoundError, w)
    else
      match files w !! file with
      | Some Directory => (Raise IsADirectoryError, w)
      | Some (RegFile _ false) => (Raise PermissionError, w)
      | Some (RegFile _ true) | None => (Return tt, write_file file Malformed w)
      end.

(** [json.load(f)] *)
Definition json_load (c : content) : py dict :=
  match c with
  | JsonObject d => ret d
  | Malformed => raise JSONDecodeError
  end.

(** [json.dump(obj, f, indent=2)] on the file opened for writing. *)
Definition json_dump (obj : dict) (file : string) : py unit :=
  fun w => (Return tt, write_file file (JsonObject obj) w).

(** ** The functions of the module *)

(** [add_item(item, qty, logs)].  Python returns [None] and appends to the
    caller's list in place; the model returns the caller's list as it is
    after the call ([None] when the caller passed no list, in which case
    the entry goes to a fresh list nobody else sees). *)
Definition add_item (item qty : pyval) (logs : option (list log_entry))
  : py (option (list log_entry)) :=
  if negb (py_truthy item) || negb (isinstance_str item) then ret logs
  else if negb (isinstance_int qty) then ret logs
  else
    negative <- lift (py_lt qty (PInt 0)) ;;
    if (negative : bool) then ret logs
    else
      match item with
      | PStr name =>
          cur <- stock_get item (PInt 0) ;;
          new <- lift (py_add cur qty) ;;
          d <- get_stock ;;
          set_stock (dict_set name new d) ;;
          now <- datetime_now ;;
          ret (option_map (fun l => l ++ [LogAdded now qty name]) logs)
      | _ => ret logs   (* excluded by the [isinstance] test above *)
      end.

(** [remove_item(item, qty)] *)
Definition remove_item (item qty : pyval) : py unit :=
  try_except
    (present <- stock_contains item ;;
     if negb present then print (MsgNotFound item)
     else
       stock_isub item qty ;;
       cur <- stock_getitem item ;;
       nonpositive <- lift (py_le cur (PInt 0)) ;;
       if (nonpositive : bool) then stock_delitem item else ret tt)
    (fun e =>
       match e with
       | KeyError | TypeError => Some (print (MsgRemoveError item e))
       | _ => None
       end).

(** [get_qty(item)] *)
Definition get_qty (item : pyval) : py pyval :=
  stock_get item (PInt 0).

(** [load_data(file)] *)
Definition load_data (file : string) : py unit :=
  try_except
    (c <- open_read file ;;
     d <- json_load c ;;
     set_stock d)
    (fun e =>
       match e with
       | FileNotFoundError =>
           Some (print (MsgFileNotFound file) ;; set_stock [])
       | JSONDecodeError =>
           Some (print (MsgDecodeError file e) ;; set_stock [])
       | _ => None
       end).

(** [save_data(file)] *)
Definition save_data (file : string) : py unit :=
  try_except
    (open_write file ;;
     d <- get_stock ;;
     json_dump d file)
    (fun e =>
       if is_IOError e then Some (print (MsgSaveError file e)) else None).

(** [print_data()] *)
Definition print_data : py unit :=
  print MsgReportHeader ;;
  d <- get_stock ;;
  for_each (dict_keys d)
    (fun item =>
       v <- stock_getitem (PStr item) ;;
       print (MsgReportLine item v)).

(** The loop of [check_low_items]: [result] is the list built so far. *)
Fixpoint low_items_loop (items : list string) (threshold : pyval)
    (result : list string) : py (list string) :=
  match items with
  | [] => ret result
  | item :: rest =>
      v <- stock_getitem (PStr item) ;;
      low <- lift (py_lt v threshold) ;;
      low_items_loop rest threshold
        (if (low : bool) then result ++ [item] else result)
  end.

(** [check_low_items(threshold)] *)
Definition check_low_items (threshold : pyval) : py (list string) :=
  d <- get_stock ;;
  low_items_loop (dict_keys d) threshold [].

(** [main()], with the default arguments written out. *)
Definition main : py unit :=
  add_item (PStr "apple") (PInt 10) None ;;
  add_item (PStr "banana") (PInt 5) None ;;
  add_item (PInt 123) (PStr "ten") None ;;
  remove_item (PStr "apple") (PInt 3) ;;
  remove_item (PStr "orange") (PInt 1) ;;
  q <- get_qty (PStr "apple") ;;
  print (MsgAppleStock q) ;;
  low <- check_low_items (PInt 5) ;;
  print (MsgLowItems low) ;;
  save_data "inventory.json" ;;
  load_data "inventory.json" ;;
  print_data ;;
  print MsgCompleted.

(** The state of a fresh process: an empty store and nothing printed. *)
Definition initial_world (fs : gmap string node) (t : nat) : world :=
  {| stock_data := []; files := fs; stdout := []; clock := t |}.

(** ** Vocabulary of the specification *)

(** An integer quantity, as Python sees it ([as_int v] is defined). *)
Definition is_int_dict (d : dict) : Prop :=
  Forall (fun kv => isinstance_int (snd kv) = true) d.







(** The operations that change the store or the files, as a caller issues
    them one after the other.  An exception that leaves an operation ends
    that operation only: the store stays as the operation left it. *)
Inductive command : Type :=
| Add (item qty : pyval) (logs : option (list log_entry))
| Remove (item qty : pyval)
| Load (file : string)
| Save (file : string).

Definition exec (c : command) (w : world) : world :=
  match c with
  | Add item qty logs => snd (add_item item qty logs w)
  | Remove item qty => snd (remove_item item qty w)
  | Load file => snd (load_data file w)
  | Save file => snd (save_data file w)
  end.

(** States reached from [w0] by commands that satisfy [ok]. *)
Inductive reachable (ok : command -> Prop) (w0 : world) : world -> Prop :=
| reach_start : reachable ok w0 w0
| reach_step (w : world) (c : command) :
    reachable ok w0 w -> ok c -> reachable ok w0 (exec c w).

Definition any_command (c : command) : Prop := True.


(** The selection made by [check_low_items] on an integer-valued store. *)
Definition below (t : Z) (kv : string * pyval) : bool :=
  match as_int (snd kv) with Some q => q <? t | None => false end.

(** The lines [print_data] writes for a store. *)
Definition report_lines (d : dict) : list message :=
  map (fun kv => MsgReportLine (fst kv) (snd kv)) d.

(** The binary64 number 0.5. *)
Definition half : spec_float := S754_finite false 4503599627370496 (-53).

(** A store with one item and a read-only [inventory.json] that holds an
    empty JSON object. *)
Definition read_only_world : world :=
  {| stock_data := [("apple", PInt 7)];
     files := {["inventory.json" := RegFile (JsonObject []) false]};
     stdout := []; clock := 0%nat |}.

(** A store that holds three apples, and one with ten bananas more. *)
Definition apple_world : world :=
  with_stock [("apple", PInt 3)] (initial_world ∅ 0%nat).

Definition fruit_world : world :=
  with_stock [("apple", PInt 3); ("banana", PInt 10)] (initial_world ∅ 0%nat).

(** A store with one very large quantity. *)
Definition huge_world : world :=
  {| stock_data := [("apple", PInt (10 ^ 400))]; files := ∅;
     stdout := []; clock := 0%nat |}.

(** ** Vocabulary for further properties *)

(** A number, as the arithmetic and the comparisons see it. *)
Definition is_number (v : pyval) : bool :=
  match as_num v with Some _ => true | None => false end.

(** The selection made by [check_low_items] on a store of numbers, for a
    threshold that is the number [m]. *)
Definition below_num (m : num) (kv : string * pyval) : bool :=
  match as_num (snd kv) with
  | Some n => cmp_holds OpLt (num_compare n m)
  | None => false
  end.



(** Every JSON object held by a file is a proper dictionary. *)
Definition wf_files (fs : gmap string node) : Prop :=
  forall file d wr,
    fs !! file = Some (RegFile (JsonObject d) wr) -> dict_wf d.

(** A store in which the quantity of the apples is a string. *)
Definition text_world : world :=
  with_stock [("apple", PStr "many")] (initial_world ∅ 0%nat).



(** ** Running the module on concrete inputs *)

Example main_run :
  let (r, w) := main (initial_world ∅ 0%nat) in
  r = Return tt /\
  stock_data w = [("apple", PInt 7); ("banana", PInt 5)] /\
  stdout w =
    [MsgNotFound (PStr "orange"); MsgAppleStock (PInt 7); MsgLowItems [];
     MsgReportHeader; MsgReportLine "apple" (PInt 7);
     MsgReportLine "banana" (PInt 5); MsgCompleted] /\
  files w !! "inventory.json" =
    Some (RegFile (JsonObject [("apple", PInt 7); ("banana", PInt 5)]) true).
Proof. vm_compute. repeat split. Qed.

Example sub_half : py_sub (PInt 1) (PFloat half) = Return (PFloat half).
Proof. vm_compute. reflexivity. Qed.

Example sub_overflow : py_sub (PInt (10 ^ 400)) (PFloat half) = Raise OverflowError.
Proof. vm_compute. reflexivity. Qed.

Example sub_str : py_sub (PInt 5) (PStr "ten") = Raise TypeError.
Proof. reflexivity. Qed.

Example lt_float_int : py_lt (PFloat half) (PInt 1) = Return true.
Proof. vm_compute. reflexivity. Qed.

(** ** Facts about dictionaries *)

Section DictFacts.
Implicit Types (k : string) (v : pyval) (d : dict).

Lemma dict_get_set_eq k v d : dict_get k (dict_set k v d) = Some v.
Proof.
  induction d as [|[k' v'] d IH]; simpl.
  - now rewrite String.eqb_refl.
  - destruct (String.eqb k k') eqn:E; simpl; rewrite ?E, ?String.eqb_refl;
      auto.
Qed.

Lemma dict_get_set_neq k k' v d :
  k <> k' -> dict_get k' (dict_set k v d) = dict_get k' d.
Proof.
  intros Hne. induction d as [|[k0 v0] d IH]; simpl.
  - destruct (String.eqb_spec k' k); congruence.
  - destruct (String.eqb_spec k k0) as [->|]; simpl.
    + destruct (String.eqb_spec k' k0); congruence.
    + now rewrite IH.
Qed.

Lemma dict_get_del_eq k d : dict_get k (dict_del k d) = None.
Proof.
  induction d as [|[k' v'] d IH]; simpl; auto.
  destruct (String.eqb k k') eqn:E; simpl; rewrite ?E; auto.
Qed.

Lemma dict_get_del_neq k k' d :
  k <> k' -> dict_get k' (dict_del k d) = dict_get k' d.
Proof.
  intros Hne. induction d as [|[k0 v0] d IH]; simpl; auto.
  destruct (String.eqb_spec k k0) as [->|]; simpl.
  - destruct (String.eqb_spec k' k0); congruence.
  - now rewrite IH.
Qed.

Lemma dict_get_In k v d : dict_get k d = Some v -> In (k, v) d.
Proof.
  induction d as [|[k' v'] d IH]; simpl; [discriminate|].
  destruct (String.eqb_spec k k') as [->|]; intros H.
  - left. congruence.
  - right. auto.
Qed.

Lemma dict_get_None_keys k d : dict_get k d = None -> ~ In k (dict_keys d).
Proof.
  induction d as [|[k' v'] d IH]; simpl; [tauto|].
  destruct (String.eqb_spec k k') as [->|]; [discriminate|].
  intros H [E|Hin]; [congruence|]. now apply IH.
Qed.

(** In a well-formed dictionary every binding is the one lookup finds. *)
Lemma dict_wf_get k v d : dict_wf d -> In (k, v) d -> dict_get k d = Some v.
Proof.
  unfold dict_wf. induction d as [|[k' v'] d IH]; simpl; [tauto|].
  intros Hnd [E|Hin]; inversion Hnd as [|? ? Hnotin Hnd']; subst.
  - inversion E; subst. now rewrite String.eqb_refl.
  - destruct (String.eqb_spec k k') as [->|]; [|auto].
    exfalso. apply Hnotin. change (In (fst (k', v)) (map fst d)).
    now apply in_map.
Qed.






Lemma dict_wf_snoc k v d :
  dict_wf d -> dict_get k d = None -> dict_wf (d ++ [(k, v)]).
Proof.
  unfold dict_wf, dict_keys. intros Hnd Hnone.
  apply dict_get_None_keys in Hnone. unfold dict_keys in Hnone.
  rewrite List.map_app. simpl.
  induction d as [|[k' v'] d IH]; simpl in *.
  - repeat constructor. simpl. tauto.
  - inversion Hnd as [|? ? Hnotin Hnd']; subst. constructor.
    + rewrite List.in_app_iff. simpl. intros [H|[H|[]]]; [tauto|].
      apply Hnone. left. congruence.
    + apply IH; auto.
Qed.
End DictFacts.

(** ** Operators on integers *)

Section IntegerOperators.
Variables (a b : pyval) (x y : Z).
Hypothesis Ha : as_int a = Some x.
Hypothesis Hb : as_int b = Some y.


Lemma as_int_isinstance : isinstance_int a = true.
Proof using Ha. destruct a; simpl in *; congruence. Qed.

Lemma py_add_int : py_add a b = Return (PInt (x + y)).
Proof using Ha Hb.
  destruct a, b; simpl in *; try discriminate;
    injection Ha as <-; injection Hb as <-; reflexivity.
Qed.

Lemma py_sub_int : py_sub a b = Return (PInt (x - y)).
Proof using Ha Hb.
  destruct a, b; simpl in *; try discriminate;
    injection Ha as <-; injection Hb as <-; reflexivity.
Qed.

Lemma py_lt_int : py_lt a b = Return (x <? y).
Proof using Ha Hb.
  unfold py_lt, Z.ltb.
  destruct a, b; simpl in *; try discriminate;
    injection Ha as <-; injection Hb as <-; simpl;
    match goal with |- context [?u ?= ?v] => destruct (u ?= v) end;
    reflexivity.
Qed.

Lemma py_le_int : py_le a b = Return (x <=? y).
Proof using Ha Hb.
  unfold py_le, Z.leb.
  destruct a, b; simpl in *; try discriminate;
    injection Ha as <-; injection Hb as <-; simpl;
    match goal with |- context [?u ?= ?v] => destruct (u ?= v) end;
    reflexivity.
Qed.
End IntegerOperators.

Lemma isinstance_int_as_int (v : pyval) :
  isinstance_int v = true -> exists z, as_int v = Some z.
Proof. destruct v; simpl; try discriminate; eauto. Qed.



(** A result of a subtraction is a number. *)
Lemma py_sub_returns_num (a b v : pyval) :
  py_sub a b = Return v -> exists n, as_num v = Some n.
Proof.
  unfold py_sub, num_arith.
  repeat match goal with
         | |- context [match ?t with _ => _ end] => destruct t
         end; intros H; inversion H; simpl; eauto.
Qed.

Lemma py_le_num (v : pyval) (n : num) (c : pyval) (m : num) :
  as_num v = Some n -> as_num c = Some m ->
  py_le v c = Return (cmp_holds OpLe (num_compare n m)).
Proof.
  destruct v, c; simpl; intros Hn Hm; try discriminate;
    injection Hn as <-; injection Hm as <-; reflexivity.
Qed.

(** ** Equations of the functions *)

Ltac py_step :=
  unfold bind, lift, ret, raise, get_stock, set_stock, print, datetime_now,
    try_except; simpl.

Lemma stock_get_str (name : string) (default : pyval) (w : world) :
  stock_get (PStr name) default w =
  (Return match dict_get name (stock_data w) with
          | Some v => v
          | None => default
          end, w).
Proof. reflexivity. Qed.

Lemma stock_getitem_present (name : string) (v : pyval) (w : world) :
  dict_get name (stock_data w) = Some v ->
  stock_getitem (PStr name) w = (Return v, w).
Proof. intros H. unfold stock_getitem. py_step. now rewrite H. Qed.

Lemma truthy_name (name : string) :
  name <> "" -> py_truthy (PStr name) = true.
Proof. intros H. simpl. now destruct (String.eqb_spec name ""). Qed.

(** A valid call of [add_item]: the sum is stored and one entry is logged. *)
Lemma add_item_valid (name : string) (qty : pyval) (n : Z)
    (logs : option (list log_entry)) (w : world) :
  name <> "" -> as_int qty = Some n -> 0 <= n ->
  add_item (PStr name) qty logs w =
  match
    py_add match dict_get name (stock_data w) with
           | Some v => v
           | None => PInt 0
           end qty
  with
  | Return new =>
      (Return (option_map (fun l => l ++ [LogAdded (clock w) qty name]) logs),
       with_stock (dict_set name new (stock_data w)) w)
  | Raise e => (Raise e, w)
  end.
Proof.
  intros Hname Hqty Hn. unfold add_item.
  rewrite (truthy_name name Hname), (as_int_isinstance qty n Hqty). simpl.
  unfold bind at 1, lift at 1.
  rewrite (py_lt_int qty (PInt 0) n 0 Hqty eq_refl).
  destruct (Z.ltb_spec n 0) as [|_]; [lia|].
  unfold bind at 1. rewrite stock_get_str.
  unfold bind at 1, lift at 1.
  destruct (py_add _ qty); reflexivity.
Qed.

(** [remove_item] on an item that is not in the store. *)
Lemma remove_item_absent (item qty : pyval) (w : world) :
  stock_contains item w = (Return false, w) ->
  remove_item item qty w =
  (Return tt, with_stdout (stdout w ++ [MsgNotFound item]) w).
Proof.
  intros H. unfold remove_item, try_except, bind at 1. now rewrite H.
Qed.

(** [remove_item] on an item of the store, by the result of the
    subtraction. *)
Lemma remove_item_present (name : string) (cur qty : pyval) (w : world) :
  dict_get name (stock_data w) = Some cur ->
  remove_item (PStr name) qty w =
  match py_sub cur qty with
  | Return new =>
      match py_le new (PInt 0) with
      | Return true =>
          (Return tt,
           with_stock (dict_del name (dict_set name new (stock_data w))) w)
      | Return false =>
          (Return tt, with_stock (dict_set name new (stock_data w)) w)
      | Raise e =>
          let w' := with_stock (dict_set name new (stock_data w)) w in
          match e with
          | KeyError | TypeError =>
              (Return tt,
               with_stdout (stdout w' ++ [MsgRemoveError (PStr name) e]) w')
          | _ => (Raise e, w')
          end
      end
  | Raise e =>
      match e with
      | KeyError | TypeError =>
          (Return tt,
           with_stdout (stdout w ++ [MsgRemoveError (PStr name) e]) w)
      | _ => (Raise e, w)
      end
  end.
Proof.
  intros Hget.
  unfold remove_item, try_except, stock_contains, stock_isub, stock_getitem,
    stock_delitem.
  py_step. rewrite Hget. simpl. rewrite Hget.
  destruct (py_sub cur qty) as [new|e]; simpl.
  - rewrite dict_get_set_eq.
    destruct (py_le new (PInt 0)) as [[|]|e]; simpl.
    + now rewrite dict_get_set_eq.
    + reflexivity.
    + destruct e; reflexivity.
  - destruct e; reflexivity.
Qed.

(** ** Adding *)



(** The first validation test: the item must be a non-empty string. *)
Lemma add_item_rejects_item
    (w : world) (item qty : pyval) (logs : option (list log_entry)) :
  isinstance_str item = false \/ item = PStr "" ->
  add_item item qty logs w = (Return logs, w).
Proof.
  intros H. unfold add_item.
  destruct (negb (py_truthy item) || negb (isinstance_str item)) eqn:Eitem;
    [reflexivity|].
  destruct H as [H| ->]; [|discriminate].
  rewrite H in Eitem. simpl in Eitem. rewrite orb_true_r in Eitem.
  discriminate.
Qed.

(** The second validation test: the quantity must be an [int]... *)
Lemma add_item_rejects_type
    (w : world) (item qty : pyval) (logs : option (list log_entry)) :
  isinstance_int qty = false ->
  add_item item qty logs w = (Return logs, w).
Proof.
  intros H. unfold add_item. rewrite H. simpl.
  now destruct (negb (py_truthy item) || negb (isinstance_str item)).
Qed.

(** ... that is not negative. *)
Lemma add_item_rejects_negative
    (w : world) (item qty : pyval) (n : Z) (logs : option (list log_entry)) :
  as_int qty = Some n -> n < 0 ->
  add_item item qty logs w = (Return logs, w).
Proof.
  intros Hn Hneg. unfold add_item.
  rewrite (as_int_isinstance qty n Hn). simpl.
  unfold bind, lift. rewrite (py_lt_int qty (PInt 0) n 0 Hn eq_refl).
  destruct (Z.ltb_spec n 0); [|lia].
  now destruct (negb (py_truthy item) || negb (isinstance_str item)).
Qed.

(** A call of [add_item] is rejected or has a non-empty name and an
    integer quantity that is not negative. *)
Lemma add_item_cases
    (w : world) (item qty : pyval) (logs : option (list log_entry)) :
  add_item item qty logs w = (Return logs, w) \/
  exists name n,
    item = PStr name /\ name <> "" /\ as_int qty = Some n /\ 0 <= n.
Proof.
  destruct item as [| | | |name| |];
    try (left; apply add_item_rejects_item; left; reflexivity).
  destruct (String.eqb_spec name "") as [->|Hname].
  { left. apply add_item_rejects_item. now right. }
  destruct (isinstance_int qty) eqn:Eqty.
  2: { left. now apply add_item_rejects_type. }
  destruct (isinstance_int_as_int qty Eqty) as [n Hn].
  destruct (Z.ltb_spec n 0).
  - left. now apply (add_item_rejects_negative w _ qty n).
  - right. eauto 6.
Qed.

(** C6: [add_item] with an item that is not a non-empty string, or with a
    quantity that is not an integer or is negative, returns normally and
    changes nothing: the store, the files and the console are as before and
    the caller's log list has no new entry. *)
Theorem add_item_invalid_is_noop
    (w : world) (item qty : pyval) (logs : option (list log_entry)) :
  (isinstance_str item = false \/ item = PStr "") \/
  isinstance_int qty = false \/
  (exists n, as_int qty = Some n /\ n < 0) ->
  add_item item qty logs w = (Return logs, w).
Proof.
  intros [Hitem|[Htype|(n & Hn & Hneg)]].
  - now apply add_item_rejects_item.
  - now apply add_item_rejects_type.
  - now apply (add_item_rejects_negative w item qty n).
Qed.

Lemma add_item_invalid_is_noop_witness :
  add_item (PInt 123) (PStr "ten") (Some []) (initial_world ∅ 0%nat) =
  (Return (Some []), initial_world ∅ 0%nat).
Proof.
  apply (add_item_invalid_is_noop (initial_world ∅ 0%nat) (PInt 123)
           (PStr "ten") (Some [])).
  left. left. reflexivity.
Defined.

(** ** Querying *)

(** C8 refuted as stated: [get_qty] raises [TypeError] on an item that
    cannot be hashed, such as the empty list. *)
Lemma get_qty_unhashable_raises :
  get_qty (PList []) (initial_world ∅ 0%nat) =
  (Raise TypeError, initial_world ∅ 0%nat).
Proof. reflexivity. Qed.

(** C8 amended: for every hashable item (every string, number, [None])
    [get_qty] returns normally and leaves the state alone; the result is
    the stored quantity when the item is in the store and 0 when it is
    not. *)
Theorem get_qty_total_on_hashable (w : world) (item : pyval) :
  hashable item = true ->
  exists v,
    get_qty item w = (Return v, w) /\
    (stock_contains item w = (Return true, w) ->
     stock_getitem item w = (Return v, w)) /\
    (stock_contains item w = (Return false, w) -> v = PInt 0).
Proof.
  intros Hhash. unfold get_qty, stock_get, stock_contains, stock_getitem.
  py_step.
  destruct item; simpl in *; try discriminate;
    try (eexists; split; [reflexivity|split; [discriminate|reflexivity]]).
  destruct (dict_get s (stock_data w)) as [v|]; eexists;
    (split; [reflexivity|split; [reflexivity || discriminate
                                |reflexivity || discriminate]]).
Qed.

Lemma get_qty_total_on_hashable_witness :
  exists v,
    get_qty (PStr "pear") apple_world =
      (Return v, apple_world) /\
    (stock_contains (PStr "pear")
       apple_world =
       (Return true, apple_world) ->
     stock_getitem (PStr "pear")
       apple_world =
       (Return v, apple_world)) /\
    (stock_contains (PStr "pear")
       apple_world =
       (Return false, apple_world) ->
     v = PInt 0).
Proof.
  apply (get_qty_total_on_hashable
           apple_world
           (PStr "pear")).
  reflexivity.
Defined.

(** ** Removing *)

Lemma stock_contains_str (name : string) (w : world) :
  stock_contains (PStr name) w =
  (Return match dict_get name (stock_data w) with
          | Some _ => true
          | None => false
          end, w).
Proof. reflexivity. Qed.





(** C7 refuted as stated: a float quantity makes the subtraction from a
    very large integer fail with [OverflowError], which [remove_item] does
    not catch: the exception leaves the function and nothing is printed. *)
Lemma remove_item_overflow_escapes :
  isinstance_int (PFloat half) = false /\
  py_sub (PInt (10 ^ 400)) (PFloat half) = Raise OverflowError /\
  remove_item (PStr "apple") (PFloat half) huge_world =
  (Raise OverflowError, huge_world).
Proof. vm_compute. repeat split. Qed.

(** C7 amended: when the item is in the store and the subtraction fails
    with a [TypeError], [remove_item] catches it, prints an error message
    with the item and the fault, and leaves everything else, the stored
    quantity included, as it was. *)
Theorem remove_item_type_fault
    (w : world) (name : string) (cur qty : pyval) :
  dict_get name (stock_data w) = Some cur ->
  py_sub cur qty = Raise TypeError ->
  remove_item (PStr name) qty w =
  (Return tt,
   with_stdout (stdout w ++ [MsgRemoveError (PStr name) TypeError]) w).
Proof.
  intros Hcur Hsub.
  now rewrite (remove_item_present name cur qty w Hcur), Hsub.
Qed.

Lemma remove_item_type_fault_witness :
  remove_item (PStr "apple") (PStr "ten")
    apple_world =
  (Return tt,
   with_stdout [MsgRemoveError (PStr "apple") TypeError]
     apple_world).
Proof.
  apply (remove_item_type_fault
           apple_world
           "apple" (PInt 3) (PStr "ten")).
  - reflexivity.
  - reflexivity.
Defined.

(** The write of [remove_item] is all or nothing: either the subtraction
    succeeds and the entry holds the difference or is deleted, or the store
    is what it was. *)
Lemma remove_item_no_partial_write
    (w : world) (name : string) (cur qty : pyval) :
  dict_get name (stock_data w) = Some cur ->
  let d' := stock_data (snd (remove_item (PStr name) qty w)) in
  match py_sub cur qty with
  | Return new =>
      d' = dict_set name new (stock_data w) \/
      d' = dict_del name (dict_set name new (stock_data w))
  | Raise _ => d' = stock_data w
  end.
Proof.
  intros Hcur. simpl.
  rewrite (remove_item_present name cur qty w Hcur).
  destruct (py_sub cur qty) as [new|e] eqn:Hsub.
  - destruct (py_sub_returns_num cur qty new Hsub) as [m Hm].
    rewrite (py_le_num new m (PInt 0) (NInt 0) Hm eq_refl).
    destruct (cmp_holds OpLe _); simpl; auto.
  - destruct e; reflexivity.
Qed.

(** C10: for an item of the store with a quantity [q >= 0] and a negative
    integer [qty], [remove_item(item, qty)] stores [q - qty], which is
    more than [q]; nothing is rejected and nothing is printed. *)
Theorem remove_item_negative_increases
    (w : world) (name : string) (cur qty : pyval) (q n : Z) :
  dict_get name (stock_data w) = Some cur -> as_int cur = Some q ->
  0 <= q -> as_int qty = Some n -> n < 0 ->
  exists w',
    remove_item (PStr name) qty w = (Return tt, w') /\
    dict_get name (stock_data w') = Some (PInt (q - n)) /\
    q < q - n /\
    stdout w' = stdout w.
Proof.
  intros Hcur Hq Hpos Hn Hneg.
  rewrite (remove_item_present name cur qty w Hcur).
  rewrite (py_sub_int cur qty q n Hq Hn).
  rewrite (py_le_int (PInt (q - n)) (PInt 0) (q - n) 0 eq_refl eq_refl).
  destruct (Z.leb_spec (q - n) 0); [lia|].
  eexists. split; [reflexivity|]. simpl.
  rewrite dict_get_set_eq. repeat split. lia.
Qed.

Lemma remove_item_negative_increases_witness :
  exists w',
    remove_item (PStr "apple") (PInt (-2))
      apple_world =
      (Return tt, w') /\
    dict_get "apple" (stock_data w') = Some (PInt (3 - -2)) /\
    3 < 3 - -2 /\
    stdout w' = [].
Proof.
  apply (remove_item_negative_increases
           apple_world
           "apple" (PInt 3) (PInt (-2)) 3 (-2)).
  - reflexivity.
  - reflexivity.
  - lia.
  - reflexivity.
  - lia.
Defined.

(** ** Scanning for low stock and reporting *)

(** The loop of [check_low_items] over entries [l] of an integer-valued
    store appends the keys selected by [below], in order. *)
Lemma low_items_loop_spec (w : world) (threshold : pyval) (t : Z) :
  as_int threshold = Some t ->
  forall (l : dict) (result : list string),
    (forall k v, In (k, v) l -> dict_get k (stock_data w) = Some v) ->
    is_int_dict l ->
    low_items_loop (dict_keys l) threshold result w =
    (Return (result ++ dict_keys (List.filter (below t) l)), w).
Proof.
  intros Ht. induction l as [|[k v] l IH]; intros result Hget Hint.
  - simpl. unfold ret. now rewrite List.app_nil_r.
  - inversion Hint as [|? ? Hv Hl]; subst. simpl in Hv.
    destruct (isinstance_int_as_int v Hv) as [q Hq].
    simpl. unfold bind at 1.
    rewrite (stock_getitem_present k v w) by (apply Hget; now left).
    unfold bind at 1, lift.
    rewrite (py_lt_int v threshold q t Hq Ht).
    rewrite IH by (auto; intros; apply Hget; now right).
    unfold below at 2. simpl. rewrite Hq.
    destruct (q <? t); simpl; [|reflexivity].
    now rewrite <- List.app_assoc.
Qed.

(** [check_low_items] on an integer-valued store. *)
Lemma check_low_items_exact_aux (w : world) (threshold : pyval) (t : Z) :
  as_int threshold = Some t ->
  dict_wf (stock_data w) -> is_int_dict (stock_data w) ->
  check_low_items threshold w =
  (Return (dict_keys (List.filter (below t) (stock_data w))), w).
Proof.
  intros Ht Hwf Hint. unfold check_low_items, bind at 1, get_stock.
  rewrite (low_items_loop_spec w threshold t Ht (stock_data w) []); auto.
  intros k v Hin. now apply dict_wf_get.
Qed.

(** The selected names are exactly the items whose quantity is below [t]. *)
Lemma low_items_membership (d : dict) (t : Z) (name : string) :
  dict_wf d ->
  In name (dict_keys (List.filter (below t) d)) <->
  exists v q, dict_get name d = Some v /\ as_int v = Some q /\ q < t.
Proof.
  intros Hwf. unfold dict_keys. rewrite List.in_map_iff. split.
  - intros ([k v] & Hk & Hin). simpl in Hk. subst k.
    apply List.filter_In in Hin. destruct Hin as [Hin Hb].
    unfold below in Hb. simpl in Hb.
    destruct (as_int v) as [q|] eqn:Hq; [|discriminate].
    exists v, q. split; [now apply dict_wf_get|].
    split; [exact Hq|]. now apply Z.ltb_lt.
  - intros (v & q & Hget & Hq & Hlt). exists (name, v). split; [reflexivity|].
    apply List.filter_In. split; [now apply dict_get_In|].
    unfold below. simpl. rewrite Hq. now apply Z.ltb_lt.
Qed.

(** C4: on a store whose quantities are integers, [check_low_items(t)]
    with an integer [t] returns normally and leaves the state as it was;
    the result lists, in the order of the mapping, the names of exactly
    the entries whose quantity is strictly less than [t]. *)
Theorem check_low_items_exact (w : world) (threshold : pyval) (t : Z) :
  as_int threshold = Some t ->
  dict_wf (stock_data w) -> is_int_dict (stock_data w) ->
  exists low,
    check_low_items threshold w = (Return low, w) /\
    low = dict_keys (List.filter (below t) (stock_data w)) /\
    (forall name,
       In name low <->
       exists v q,
         dict_get name (stock_data w) = Some v /\ as_int v = Some q /\
         q < t).
Proof.
  intros Ht Hwf Hint. eexists. split; [|split].
  - now apply (check_low_items_exact_aux w threshold t).
  - reflexivity.
  - intros name. now apply low_items_membership.
Qed.

Lemma check_low_items_exact_witness :
  exists low,
    check_low_items (PInt 5) fruit_world = (Return low, fruit_world) /\
    low = dict_keys (List.filter (below 5) (stock_data fruit_world)) /\
    (forall name,
       In name low <->
       exists v q,
         dict_get name (stock_data fruit_world) = Some v /\
         as_int v = Some q /\ q < 5).
Proof.
  apply (check_low_items_exact fruit_world (PInt 5) 5).
  - reflexivity.
  - repeat constructor; simpl; intuition discriminate.
  - repeat constructor.
Defined.

(** The example of the specification: of three apples and ten bananas,
    only the apples are below five. *)
Example check_low_items_fruit :
  check_low_items (PInt 5) fruit_world = (Return ["apple"], fruit_world).
Proof. reflexivity. Qed.

(** The loop of [print_data] writes one line per entry. *)
Lemma report_loop_spec (d : dict) :
  forall (l : dict) (w : world),
    stock_data w = d ->
    (forall k v, In (k, v) l -> dict_get k d = Some v) ->
    for_each (dict_keys l)
      (fun item =>
         v <- stock_getitem (PStr item) ;; print (MsgReportLine item v)) w =
    (Return tt, with_stdout (stdout w ++ report_lines l) w).
Proof.
  induction l as [|[k v] l IH]; intros w Hd Hget.
  - simpl. unfold ret, with_stdout. rewrite List.app_nil_r.
    now destruct w.
  - simpl. unfold bind at 1, bind at 1.
    rewrite (stock_getitem_present k v w)
      by (rewrite Hd; apply Hget; now left).
    unfold print at 1.
    rewrite IH by (auto; intros; apply Hget; now right).
    simpl. now rewrite <- List.app_assoc.
Qed.

(** [print_data] never fails: it writes the header and then one line per
    entry, in the order of the mapping, and changes nothing else. *)
Lemma print_data_spec (w : world) :
  dict_wf (stock_data w) ->
  print_data w =
  (Return tt,
   with_stdout
     (stdout w ++ MsgReportHeader :: report_lines (stock_data w)) w).
Proof.
  intros Hwf. unfold print_data, bind at 1, print at 1.
  unfold bind at 1, get_stock.
  rewrite (report_loop_spec (stock_data w) (stock_data w)); auto.
  - simpl. now rewrite <- List.app_assoc.
  - intros k v Hin. now apply dict_wf_get.
Qed.



(** ** Saving and loading *)

(** [save_data] when the file can be opened for writing. *)
Lemma save_data_success (file : string) (w : world) :
  fst (open_write file w) = Return tt ->
  save_data file w =
  (Return tt,
   write_file file (JsonObject (stock_data w)) (write_file file Malformed w)).
Proof.
  unfold save_data, try_except, bind, open_write, json_dump, get_stock.
  destruct (String.eqb file ""); [discriminate|].
  destruct (files w !! file) as [[c [|]|]|]; simpl; intros H;
    try discriminate; reflexivity.
Qed.

(** [save_data] when the file cannot be opened: a message, nothing else. *)
Lemma save_data_failure (file : string) (w : world) (e : exn) :
  fst (open_write file w) = Raise e ->
  save_data file w =
  (Return tt, with_stdout (stdout w ++ [MsgSaveError file e]) w).
Proof.
  unfold save_data, try_except, bind, open_write, json_dump, get_stock.
  destruct (String.eqb file "").
  { simpl. intros H. injection H as <-. reflexivity. }
  destruct (files w !! file) as [[c [|]|]|]; simpl; intros H;
    try discriminate; injection H as <-; reflexivity.
Qed.

(** [load_data] of a file that holds a JSON object. *)
Lemma load_data_object (file : string) (d : dict) (wr : bool) (w : world) :
  file <> "" -> files w !! file = Some (RegFile (JsonObject d) wr) ->
  load_data file w = (Return tt, with_stock d w).
Proof.
  intros Hfile Hlook.
  unfold load_data, try_except, bind, open_read, json_load.
  destruct (String.eqb_spec file ""); [contradiction|].
  now rewrite Hlook.
Qed.





(** ** The quantities of reachable stores *)













(** Why the amended statement excludes float quantities in [remove_item]
    and files with other contents: both bring quantities that are not
    non-negative integers into the store. *)
Example remove_float_leaves_fraction :
  stock_data
    (exec (Remove (PStr "apple") (PFloat half))
       (exec (Add (PStr "apple") (PInt 1) None) (initial_world ∅ 0%nat))) =
  [("apple", PFloat half)].
Proof. vm_compute. reflexivity. Qed.

Example load_brings_any_quantity :
  stock_data
    (exec (Load "inventory.json")
       (initial_world
          {["inventory.json" :=
              RegFile (JsonObject [("apple", PInt (-3))]) true]} 0%nat)) =
  [("apple", PInt (-3))].
Proof. vm_compute. reflexivity. Qed.

(** ** Further properties of [add_item] *)

Lemma dict_set_set (k : string) (v1 v2 : pyval) (d : dict) :
  dict_set k v2 (dict_set k v1 d) = dict_set k v2 d.
Proof.
  induction d as [|[k' v'] d IH]; simpl.
  - now rewrite String.eqb_refl.
  - destruct (String.eqb k k') eqn:E; simpl; rewrite ?E, ?String.eqb_refl;
      [reflexivity|]. now rewrite IH.
Qed.

Lemma dict_set_same (k : string) (v : pyval) (d : dict) :
  dict_get k d = Some v -> dict_set k v d = d.
Proof.
  induction d as [|[k' v'] d IH]; simpl; [discriminate|].
  destruct (String.eqb_spec k k') as [->|]; intros H.
  - congruence.
  - now rewrite IH.
Qed.

Lemma dict_del_set_absent (k : string) (v : pyval) (d : dict) :
  dict_get k d = None -> dict_del k (dict_set k v d) = d.
Proof.
  induction d as [|[k' v'] d IH]; simpl.
  - now rewrite String.eqb_refl.
  - destruct (String.eqb k k') eqn:E; [discriminate|].
    intros H. simpl. rewrite E. now rewrite IH.
Qed.

Lemma dict_keys_set (k : string) (v : pyval) (d : dict) :
  dict_keys (dict_set k v d) =
  match dict_get k d with
  | Some _ => dict_keys d
  | None => dict_keys d ++ [k]
  end.
Proof.
  induction d as [|[k' v'] d IH]; simpl; [reflexivity|].
  destruct (String.eqb_spec k k') as [->|]; simpl; [reflexivity|].
  rewrite IH. now destruct (dict_get k d).
Qed.


(** What [add_item] does, in full: it returns at once, or it is a valid
    call whose outcome is that of the addition. *)
Lemma add_item_outcome
    (w : world) (item qty : pyval) (logs : option (list log_entry)) :
  add_item item qty logs w = (Return logs, w) \/
  exists name cur,
    item = PStr name /\
    cur = match dict_get name (stock_data w) with
          | Some v => v
          | None => PInt 0
          end /\
    add_item item qty logs w =
    match py_add cur qty with
    | Return new =>
        (Return
           (option_map (fun l => l ++ [LogAdded (clock w) qty name]) logs),
         with_stock (dict_set name new (stock_data w)) w)
    | Raise e => (Raise e, w)
    end.
Proof.
  destruct (add_item_cases w item qty logs)
    as [H|(name & n & -> & Hname & Hn & Hpos)]; [now left|].
  right. exists name. eexists. split; [reflexivity|]. split; [reflexivity|].
  now apply (add_item_valid name qty n).
Qed.

(** X1: whatever its arguments and its outcome, [add_item] changes neither
    the quantity of any other item, nor the files, nor the console. *)
Theorem add_item_leaves_rest
    (w : world) (item qty : pyval) (logs : option (list log_entry))
    (other : string) :
  item <> PStr other ->
  dict_get other (stock_data (snd (add_item item qty logs w))) =
    dict_get other (stock_data w) /\
  files (snd (add_item item qty logs w)) = files w /\
  stdout (snd (add_item item qty logs w)) = stdout w.
Proof.
  intros Hother.
  destruct (add_item_outcome w item qty logs)
    as [->|(name & cur & -> & _ & ->)]; [now repeat split|].
  destruct (py_add cur qty) as [new|e]; simpl; [|now repeat split].
  repeat split. apply dict_get_set_neq. congruence.
Qed.

Lemma add_item_leaves_rest_witness :
  dict_get "banana"
    (stock_data (snd (add_item (PStr "apple") (PInt 4) None fruit_world))) =
    dict_get "banana" (stock_data fruit_world) /\
  files (snd (add_item (PStr "apple") (PInt 4) None fruit_world)) =
    files fruit_world /\
  stdout (snd (add_item (PStr "apple") (PInt 4) None fruit_world)) =
    stdout fruit_world.
Proof.
  apply (add_item_leaves_rest fruit_world (PStr "apple") (PInt 4) None
           "banana").
  discriminate.
Defined.



(** X3: a valid [add_item] keeps the order of the mapping: an item that is
    already there keeps its place, a new item goes last. *)
Theorem add_item_keeps_order
    (w : world) (name : string) (qty : pyval) (n q : Z)
    (logs : option (list log_entry)) :
  name <> "" -> as_int qty = Some n -> 0 <= n ->
  as_int match dict_get name (stock_data w) with
         | Some v => v
         | None => PInt 0
         end = Some q ->
  dict_keys (stock_data (snd (add_item (PStr name) qty logs w))) =
  match dict_get name (stock_data w) with
  | Some _ => dict_keys (stock_data w)
  | None => dict_keys (stock_data w) ++ [name]
  end.
Proof.
  intros Hname Hn Hpos Hq.
  rewrite (add_item_valid name qty n logs w Hname Hn Hpos).
  rewrite (py_add_int _ qty q n Hq Hn). simpl. apply dict_keys_set.
Qed.

Lemma add_item_keeps_order_witness :
  dict_keys
    (stock_data (snd (add_item (PStr "apple") (PInt 4) None fruit_world))) =
  match dict_get "apple" (stock_data fruit_world) with
  | Some _ => dict_keys (stock_data fruit_world)
  | None => dict_keys (stock_data fruit_world) ++ ["apple"]
  end.
Proof.
  apply (add_item_keeps_order fruit_world "apple" (PInt 4) 4 3 None).
  - discriminate.
  - reflexivity.
  - lia.
  - reflexivity.
Defined.

(** X4: two valid calls of [add_item] for one item leave the store that a
    single call with the sum of the quantities leaves. *)
Theorem add_item_accumulates
    (w : world) (name : string) (qty1 qty2 : pyval) (n m q : Z)
    (l1 l2 l3 : option (list log_entry)) :
  name <> "" -> as_int qty1 = Some n -> 0 <= n ->
  as_int qty2 = Some m -> 0 <= m ->
  as_int match dict_get name (stock_data w) with
         | Some v => v
         | None => PInt 0
         end = Some q ->
  stock_data (exec (Add (PStr name) qty2 l2) (exec (Add (PStr name) qty1 l1) w)) =
  stock_data (exec (Add (PStr name) (PInt (n + m)) l3) w).
Proof.
  intros Hname Hn Hn0 Hm Hm0 Hq. simpl.
  rewrite (add_item_valid name qty1 n l1 w Hname Hn Hn0).
  rewrite (py_add_int _ qty1 q n Hq Hn). simpl.
  rewrite (add_item_valid name qty2 m l2 _ Hname Hm Hm0). simpl.
  rewrite dict_get_set_eq.
  rewrite (py_add_int (PInt (q + n)) qty2 (q + n) m eq_refl Hm). simpl.
  rewrite (add_item_valid name (PInt (n + m)) (n + m) l3 w Hname eq_refl)
    by lia.
  rewrite (py_add_int _ (PInt (n + m)) q (n + m) Hq eq_refl). simpl.
  rewrite dict_set_set. f_equal. f_equal. lia.
Qed.

Lemma add_item_accumulates_witness :
  stock_data
    (exec (Add (PStr "apple") (PInt 2) None)
       (exec (Add (PStr "apple") (PInt 4) None) apple_world)) =
  stock_data (exec (Add (PStr "apple") (PInt (4 + 2)) None) apple_world).
Proof.
  apply (add_item_accumulates apple_world "apple" (PInt 4) (PInt 2) 4 2 3
           None None None).
  - discriminate.
  - reflexivity.
  - lia.
  - reflexivity.
  - lia.
  - reflexivity.
Defined.

(** X5: when the stored quantity of the item is not a number (a file can
    bring such values in), a valid [add_item] raises [TypeError]; the
    store is not written and nothing is logged. *)
Theorem add_item_on_text_raises
    (w : world) (name : string) (cur qty : pyval) (n : Z)
    (logs : option (list log_entry)) :
  name <> "" -> as_int qty = Some n -> 0 <= n ->
  dict_get name (stock_data w) = Some cur -> is_number cur = false ->
  add_item (PStr name) qty logs w = (Raise TypeError, w).
Proof.
  intros Hname Hn Hpos Hcur Hnum.
  rewrite (add_item_valid name qty n logs w Hname Hn Hpos), Hcur.
  unfold is_number in Hnum.
  destruct cur, qty; simpl in *; try discriminate; reflexivity.
Qed.

Lemma add_item_on_text_raises_witness :
  add_item (PStr "apple") (PInt 1) (Some []) text_world =
  (Raise TypeError, text_world).
Proof.
  apply (add_item_on_text_raises text_world "apple" (PStr "many") (PInt 1) 1
           (Some [])).
  - discriminate.
  - reflexivity.
  - lia.
  - reflexivity.
  - reflexivity.
Defined.



(** ** Further properties of [remove_item] *)

(** After a successful subtraction the comparison with 0 cannot fail. *)
Lemma py_le_after_sub (cur qty new : pyval) :
  py_sub cur qty = Return new -> exists b, py_le new (PInt 0) = Return b.
Proof.
  intros Hsub. destruct (py_sub_returns_num cur qty new Hsub) as [m Hm].
  rewrite (py_le_num new m (PInt 0) (NInt 0) Hm eq_refl). eauto.
Qed.





(** X9: removing less than the stock: for an integer quantity [q] and an
    integer [qty < q] the entry stays where it is in the mapping and holds
    [q - qty], and nothing is printed. *)
Theorem remove_item_decrements
    (w : world) (name : string) (cur qty : pyval) (q n : Z) :
  dict_get name (stock_data w) = Some cur -> as_int cur = Some q ->
  as_int qty = Some n -> n < q ->
  remove_item (PStr name) qty w =
    (Return tt, with_stock (dict_set name (PInt (q - n)) (stock_data w)) w) /\
  dict_keys (dict_set name (PInt (q - n)) (stock_data w)) =
    dict_keys (stock_data w).
Proof.
  intros Hcur Hq Hn Hlt. split.
  - rewrite (remove_item_present name cur qty w Hcur).
    rewrite (py_sub_int cur qty q n Hq Hn).
    rewrite (py_le_int (PInt (q - n)) (PInt 0) (q - n) 0 eq_refl eq_refl).
    destruct (Z.leb_spec (q - n) 0); [lia|reflexivity].
  - rewrite dict_keys_set. now rewrite Hcur.
Qed.

Lemma remove_item_decrements_witness :
  remove_item (PStr "apple") (PInt 1) fruit_world =
    (Return tt,
     with_stock (dict_set "apple" (PInt (3 - 1)) (stock_data fruit_world))
       fruit_world) /\
  dict_keys (dict_set "apple" (PInt (3 - 1)) (stock_data fruit_world)) =
    dict_keys (stock_data fruit_world).
Proof.
  apply (remove_item_decrements fruit_world "apple" (PInt 3) (PInt 1) 3 1).
  - reflexivity.
  - reflexivity.
  - reflexivity.
  - lia.
Defined.

(** The store that [remove_item] leaves is the old one, or the old one
    with the entry of the item rewritten and possibly deleted; the files
    are never touched. *)
Lemma remove_item_store_shape (item qty : pyval) (w : world) :
  files (snd (remove_item item qty w)) = files w /\
  (stock_data (snd (remove_item item qty w)) = stock_data w \/
   exists name new,
     item = PStr name /\
     (stock_data (snd (remove_item item qty w)) =
        dict_set name new (stock_data w) \/
      stock_data (snd (remove_item item qty w)) =
        dict_del name (dict_set name new (stock_data w)))).
Proof.
  destruct item as [| | | |name| |];
    try (rewrite remove_item_absent by reflexivity; now auto);
    try (simpl; now auto).
  destruct (dict_get name (stock_data w)) as [cur|] eqn:Hget.
  2: { rewrite remove_item_absent; [now auto|].
       rewrite stock_contains_str. now rewrite Hget. }
  rewrite (remove_item_present name cur qty w Hget).
  destruct (py_sub cur qty) as [new|e] eqn:Hsub.
  - destruct (py_le_after_sub cur qty new Hsub) as [b ->].
    destruct b; simpl; (split; [reflexivity|]); right; exists name, new;
      auto.
  - destruct e; simpl; auto.
Qed.

(** X10: whatever its arguments and its outcome, [remove_item] changes
    neither the quantity of any other item nor the files. *)
Theorem remove_item_leaves_rest
    (w : world) (item qty : pyval) (other : string) :
  item <> PStr other ->
  dict_get other (stock_data (snd (remove_item item qty w))) =
    dict_get other (stock_data w) /\
  files (snd (remove_item item qty w)) = files w.
Proof.
  intros Hother.
  destruct (remove_item_store_shape item qty w)
    as [Hfiles [->|(name & new & -> & [->| ->])]];
    (split; [|exact Hfiles]); try reflexivity.
  - apply dict_get_set_neq. congruence.
  - rewrite dict_get_del_neq by congruence.
    apply dict_get_set_neq. congruence.
Qed.

Lemma remove_item_leaves_rest_witness :
  dict_get "banana"
    (stock_data (snd (remove_item (PStr "apple") (PInt 5) fruit_world))) =
    dict_get "banana" (stock_data fruit_world) /\
  files (snd (remove_item (PStr "apple") (PInt 5) fruit_world)) =
    files fruit_world.
Proof.
  apply (remove_item_leaves_rest fruit_world (PStr "apple") (PInt 5)
           "banana").
  discriminate.
Defined.



(** X12: [add_item] followed by [remove_item] with the same item and
    quantity gives the store back, when the item was absent or held a
    positive integer. *)
Theorem add_then_remove_restores
    (w : world) (name : string) (qty : pyval) (n : Z)
    (logs : option (list log_entry)) :
  name <> "" -> as_int qty = Some n -> 0 <= n ->
  (dict_get name (stock_data w) = None \/
   exists q, dict_get name (stock_data w) = Some (PInt q) /\ 0 < q) ->
  stock_data
    (exec (Remove (PStr name) qty) (exec (Add (PStr name) qty logs) w)) =
  stock_data w.
Proof.
  intros Hname Hn Hpos Hcur. simpl.
  rewrite (add_item_valid name qty n logs w Hname Hn Hpos).
  assert (Hstep : forall q,
             match dict_get name (stock_data w) with
             | Some v => v
             | None => PInt 0
             end = PInt q ->
             stock_data
               (snd (remove_item (PStr name) qty
                       (with_stock
                          (dict_set name (PInt (q + n)) (stock_data w)) w))) =
             if q + n - n <=? 0
             then dict_del name (dict_set name (PInt (q + n - n))
                                   (stock_data w))
             else dict_set name (PInt (q + n - n)) (stock_data w)).
  { intros q Hq.
    rewrite (remove_item_present name (PInt (q + n)) qty)
      by (simpl; apply dict_get_set_eq).
    rewrite (py_sub_int (PInt (q + n)) qty (q + n) n eq_refl Hn).
    rewrite (py_le_int (PInt (q + n - n)) (PInt 0) (q + n - n) 0
               eq_refl eq_refl).
    simpl. rewrite dict_set_set. now destruct (q + n - n <=? 0). }
  destruct Hcur as [Habsent|(q & Hq & Hq0)].
  - specialize (Hstep 0). rewrite Habsent in *.
    rewrite (py_add_int (PInt 0) qty 0 n eq_refl Hn). simpl.
    rewrite (Hstep eq_refl).
    destruct (Z.leb_spec (0 + n - n) 0); [|lia].
    now apply dict_del_set_absent.
  - specialize (Hstep q). rewrite Hq in *.
    rewrite (py_add_int (PInt q) qty q n eq_refl Hn). simpl.
    rewrite (Hstep eq_refl).
    destruct (Z.leb_spec (q + n - n) 0); [lia|].
    replace (q + n - n) with q by lia. now apply dict_set_same.
Qed.

Lemma add_then_remove_restores_witness :
  stock_data
    (exec (Remove (PStr "apple") (PInt 4))
       (exec (Add (PStr "apple") (PInt 4) None) fruit_world)) =
  stock_data fruit_world.
Proof.
  apply (add_then_remove_restores fruit_world "apple" (PInt 4) 4 None).
  - discriminate.
  - reflexivity.
  - lia.
  - right. exists 3. split; [reflexivity|lia].
Defined.

(** ** Further properties of [load_data] and [save_data] *)

(** What [load_data] does, by what the path names. *)
Lemma load_data_outcome (file : string) (w : world) :
  load_data file w =
  if String.eqb file "" then
    (Return tt,
     with_stock [] (with_stdout (stdout w ++ [MsgFileNotFound file]) w))
  else
    match files w !! file with
    | None =>
        (Return tt,
         with_stock [] (with_stdout (stdout w ++ [MsgFileNotFound file]) w))
    | Some Directory => (Raise IsADirectoryError, w)
    | Some (RegFile (JsonObject d) _) => (Return tt, with_stock d w)
    | Some (RegFile Malformed _) =>
        (Return tt,
         with_stock []
           (with_stdout (stdout w ++ [MsgDecodeError file JSONDecodeError])
              w))
    end.
Proof.
  unfold load_data, try_except, bind, open_read, json_load.
  destruct (String.eqb file ""); [reflexivity|].
  destruct (files w !! file) as [[[d|] wr|]|]; reflexivity.
Qed.







(** X16: [load_data] replaces, it does not merge: when it returns, the
    store it leaves does not depend on the store it found. *)
Theorem load_data_forgets_store (file : string) (w w' : world) (d0 : dict) :
  load_data file w = (Return tt, w') ->
  fst (load_data file (with_stock d0 w)) = Return tt /\
  stock_data (snd (load_data file (with_stock d0 w))) = stock_data w'.
Proof.
  rewrite !load_data_outcome. simpl.
  destruct (String.eqb file "").
  { intros H. injection H as <-. now split. }
  destruct (files w !! file) as [[[d|] wr|]|]; try discriminate;
    intros H; injection H as <-; now split.
Qed.

Lemma load_data_forgets_store_witness :
  fst (load_data "inventory.json"
         (with_stock [("pear", PInt 1)] read_only_world)) = Return tt /\
  stock_data
    (snd (load_data "inventory.json"
            (with_stock [("pear", PInt 1)] read_only_world))) =
  stock_data (with_stock [] read_only_world).
Proof.
  apply (load_data_forgets_store "inventory.json" read_only_world
           (with_stock [] read_only_world) [("pear", PInt 1)]).
  reflexivity.
Defined.









(** ** Further properties of [print_data] and [check_low_items] *)



Lemma py_lt_num (v : pyval) (n : num) (c : pyval) (m : num) :
  as_num v = Some n -> as_num c = Some m ->
  py_lt v c = Return (cmp_holds OpLt (num_compare n m)).
Proof.
  destruct v, c; simpl; intros Hn Hm; try discriminate;
    injection Hn as <-; injection Hm as <-; reflexivity.
Qed.

Lemma py_lt_not_number (v c : pyval) (m : num) :
  is_number v = false -> as_num c = Some m -> py_lt v c = Raise TypeError.
Proof.
  unfold is_number.
  destruct v, c; simpl; intros Hv Hc; try discriminate; reflexivity.
Qed.

Lemma is_number_as_num (v : pyval) :
  is_number v = true -> exists n, as_num v = Some n.
Proof. unfold is_number. destruct (as_num v); [eauto|discriminate]. Qed.

Lemma low_items_loop_numbers (w : world) (threshold : pyval) (m : num) :
  as_num threshold = Some m ->
  forall (l : dict) (result : list string),
    (forall k v, In (k, v) l -> dict_get k (stock_data w) = Some v) ->
    Forall (fun kv => is_number (snd kv) = true) l ->
    low_items_loop (dict_keys l) threshold result w =
    (Return (result ++ dict_keys (List.filter (below_num m) l)), w).
Proof.
  intros Hm. induction l as [|[k v] l IH]; intros result Hget Hnum.
  - simpl. unfold ret. now rewrite List.app_nil_r.
  - inversion Hnum as [|? ? Hv Hl]; subst. simpl in Hv.
    destruct (is_number_as_num v Hv) as [n Hn].
    simpl. unfold bind at 1.
    rewrite (stock_getitem_present k v w) by (apply Hget; now left).
    unfold bind at 1, lift.
    rewrite (py_lt_num v n threshold m Hn Hm).
    rewrite IH by (auto; intros; apply Hget; now right).
    assert (Hb : below_num m (k, v) = cmp_holds OpLt (num_compare n m))
      by (unfold below_num; simpl; now rewrite Hn).
    cbn [List.filter]. rewrite Hb.
    destruct (cmp_holds OpLt (num_compare n m)); [|reflexivity].
    unfold dict_keys. cbn [map fst]. now rewrite <- List.app_assoc.
Qed.

(** X22: on a store of numbers, integers or floats, [check_low_items]
    with a number as threshold returns, in the order of the mapping, the
    names of the entries whose quantity is below the threshold by exact
    comparison, and leaves the state as it was. *)
Theorem check_low_items_numbers (w : world) (threshold : pyval) (m : num) :
  as_num threshold = Some m ->
  dict_wf (stock_data w) ->
  Forall (fun kv => is_number (snd kv) = true) (stock_data w) ->
  check_low_items threshold w =
  (Return (dict_keys (List.filter (below_num m) (stock_data w))), w).
Proof.
  intros Hm Hwf Hnum. unfold check_low_items, bind at 1, get_stock.
  rewrite (low_items_loop_numbers w threshold m Hm (stock_data w) []); auto.
  intros k v Hin. now apply dict_wf_get.
Qed.

Lemma check_low_items_numbers_witness :
  check_low_items (PInt 1)
    (with_stock [("apple", PFloat half); ("banana", PInt 10)] apple_world) =
  (Return
     (dict_keys
        (List.filter (below_num (NInt 1))
           (stock_data
              (with_stock [("apple", PFloat half); ("banana", PInt 10)]
                 apple_world)))),
   with_stock [("apple", PFloat half); ("banana", PInt 10)] apple_world).
Proof.
  apply (check_low_items_numbers
           (with_stock [("apple", PFloat half); ("banana", PInt 10)]
              apple_world) (PInt 1) (NInt 1)).
  - reflexivity.
  - repeat constructor; simpl; intuition discriminate.
  - repeat constructor.
Defined.

Lemma low_items_loop_raises (w : world) (threshold : pyval) (m : num) :
  as_num threshold = Some m ->
  forall (l : dict) (result : list string),
    (forall k v, In (k, v) l -> dict_get k (stock_data w) = Some v) ->
    Exists (fun kv => is_number (snd kv) = false) l ->
    low_items_loop (dict_keys l) threshold result w = (Raise TypeError, w).
Proof.
  intros Hm. induction l as [|[k v] l IH]; intros result Hget Hex.
  - inversion Hex.
  - simpl. unfold bind at 1.
    rewrite (stock_getitem_present k v w) by (apply Hget; now left).
    unfold bind at 1, lift.
    destruct (is_number v) eqn:Hv.
    + destruct (is_number_as_num v Hv) as [n Hn].
      rewrite (py_lt_num v n threshold m Hn Hm).
      apply IH; [intros; apply Hget; now right|].
      inversion Hex as [? ? Hhead|? ? Htail]; subst; [|exact Htail].
      simpl in Hhead. congruence.
    + now rewrite (py_lt_not_number v threshold m Hv Hm).
Qed.

(** X23: when some quantity of the store is not a number (a file can
    bring such values in), [check_low_items] with a number as threshold
    raises [TypeError] and returns no list; the state is unchanged. *)
Theorem check_low_items_on_text_raises
    (w : world) (threshold : pyval) (m : num) :
  as_num threshold = Some m ->
  dict_wf (stock_data w) ->
  Exists (fun kv => is_number (snd kv) = false) (stock_data w) ->
  check_low_items threshold w = (Raise TypeError, w).
Proof.
  intros Hm Hwf Hex. unfold check_low_items, bind at 1, get_stock.
  apply (low_items_loop_raises w threshold m Hm); [|exact Hex].
  intros k v Hin. now apply dict_wf_get.
Qed.

Lemma check_low_items_on_text_raises_witness :
  check_low_items (PInt 5) text_world = (Raise TypeError, text_world).
Proof.
  apply (check_low_items_on_text_raises text_world (PInt 5) (NInt 5)).
  - reflexivity.
  - repeat constructor; simpl; intuition discriminate.
  - constructor. reflexivity.
Defined.

(** X24: raising the threshold never drops an item: on an integer-valued
    store, every name listed for [t] is listed for every [t' >= t]. *)
Theorem check_low_items_monotone
    (w : world) (t t' : Z) (low low' : list string) :
  dict_wf (stock_data w) -> is_int_dict (stock_data w) -> t <= t' ->
  check_low_items (PInt t) w = (Return low, w) ->
  check_low_items (PInt t') w = (Return low', w) ->
  List.incl low low'.
Proof.
  intros Hwf Hint Hle Hlow Hlow' name Hin.
  rewrite (check_low_items_exact_aux w (PInt t) t eq_refl Hwf Hint) in Hlow.
  rewrite (check_low_items_exact_aux w (PInt t') t' eq_refl Hwf Hint)
    in Hlow'.
  injection Hlow as <-. injection Hlow' as <-.
  apply (low_items_membership _ t name Hwf) in Hin.
  destruct Hin as (v & q & Hget & Hq & Hlt).
  apply (low_items_membership _ t' name Hwf).
  exists v, q. repeat split; auto. lia.
Qed.

Lemma check_low_items_monotone_witness :
  List.incl ["apple"] ["apple"; "banana"].
Proof.
  apply (check_low_items_monotone fruit_world 5 11 ["apple"]
           ["apple"; "banana"]).
  - repeat constructor; simpl; intuition discriminate.
  - repeat constructor.
  - lia.
  - reflexivity.
  - reflexivity.
Defined.

(** X25: [remove_item] never leaves the item it worked on at zero or
    below: for integer arguments the item is gone afterwards or holds a
    strictly positive integer. *)
Theorem remove_item_leaves_positive
    (w : world) (name : string) (cur qty : pyval) (q n : Z) :
  dict_get name (stock_data w) = Some cur -> as_int cur = Some q ->
  as_int qty = Some n ->
  dict_get name (stock_data (snd (remove_item (PStr name) qty w))) = None \/
  exists z,
    dict_get name (stock_data (snd (remove_item (PStr name) qty w))) =
      Some (PInt z) /\ 0 < z.
Proof.
  intros Hcur Hq Hn.
  rewrite (remove_item_present name cur qty w Hcur).
  rewrite (py_sub_int cur qty q n Hq Hn).
  rewrite (py_le_int (PInt (q - n)) (PInt 0) (q - n) 0 eq_refl eq_refl).
  destruct (Z.leb_spec (q - n) 0); simpl.
  - left. apply dict_get_del_eq.
  - right. exists (q - n). split; [apply dict_get_set_eq|lia].
Qed.

Lemma remove_item_leaves_positive_witness :
  dict_get "apple"
    (stock_data (snd (remove_item (PStr "apple") (PInt 3) apple_world))) =
    None \/
  exists z,
    dict_get "apple"
      (stock_data (snd (remove_item (PStr "apple") (PInt 3) apple_world))) =
      Some (PInt z) /\ 0 < z.
Proof.
  apply (remove_item_leaves_positive apple_world "apple" (PInt 3) (PInt 3)
           3 3).
  - reflexivity.
  - reflexivity.
  - reflexivity.
Defined.

(** ** The store stays a dictionary *)

Lemma dict_wf_set (k : string) (v : pyval) (d : dict) :
  dict_wf d -> dict_wf (dict_set k v d).
Proof.
  intros Hwf. unfold dict_wf. rewrite dict_keys_set.
  destruct (dict_get k d) eqn:Hget; [exact Hwf|].
  pose proof (dict_wf_snoc k v d Hwf Hget) as H.
  unfold dict_wf, dict_keys in *. now rewrite List.map_app in H.
Qed.

Lemma dict_keys_del_In (k k' : string) (d : dict) :
  In k' (dict_keys (dict_del k d)) -> In k' (dict_keys d).
Proof.
  induction d as [|[k0 v0] d IH]; simpl; [tauto|].
  destruct (String.eqb k k0); simpl; tauto.
Qed.

Lemma dict_wf_del (k : string) (d : dict) :
  dict_wf d -> dict_wf (dict_del k d).
Proof.
  unfold dict_wf. induction d as [|[k0 v0] d IH]; simpl; [auto|].
  intros Hnd. inversion Hnd as [|? ? Hnotin Hnd']; subst.
  destruct (String.eqb k k0); simpl; [auto|].
  constructor; [|auto]. intros Hin. apply Hnotin.
  now apply (dict_keys_del_In k).
Qed.

Lemma wf_files_insert (fs : gmap string node) (file : string)
    (c : content) (wr : bool) :
  wf_files fs -> (forall d, c = JsonObject d -> dict_wf d) ->
  wf_files (<[file := RegFile c wr]> fs).
Proof.
  intros Hfs Hc file' d wr'. destruct (decide (file = file')) as [->|Hne].
  - rewrite lookup_insert_eq. intros H. injection H as -> _. now apply Hc.
  - rewrite lookup_insert_ne by exact Hne. apply Hfs.
Qed.

Lemma exec_preserves_wf (c : command) (w : world) :
  dict_wf (stock_data w) /\ wf_files (files w) ->
  dict_wf (stock_data (exec c w)) /\ wf_files (files (exec c w)).
Proof.
  intros [Hstore Hfiles].
  destruct c as [item qty logs|item qty|file|file]; simpl.
  - destruct (add_item_outcome w item qty logs)
      as [->|(name & cur & -> & _ & ->)]; [now split|].
    destruct (py_add cur qty); simpl; [|now split].
    split; [now apply dict_wf_set|exact Hfiles].
  - destruct (remove_item_store_shape item qty w)
      as [-> [->|(name & new & _ & [->| ->])]];
      (split; [|exact Hfiles]); auto using dict_wf_set, dict_wf_del.
  - rewrite load_data_outcome.
    destruct (String.eqb file ""); [split; [constructor|exact Hfiles]|].
    destruct (files w !! file) as [[[d|] wr|]|] eqn:Hlook; simpl;
      (split; [|exact Hfiles]); try constructor; try exact Hstore.
    exact (Hfiles file d wr Hlook).
  - destruct (fst (open_write file w)) as [[]|e] eqn:Hopen.
    + rewrite (save_data_success file w Hopen). split; [exact Hstore|].
      simpl. apply wf_files_insert.
      * apply wf_files_insert; [exact Hfiles|discriminate].
      * intros d Hd. injection Hd as <-. exact Hstore.
    + rewrite (save_data_failure file w e Hopen). now split.
Qed.

(** X26: the store never holds two entries for one name: from the empty
    store, and files that hold proper JSON objects, no sequence of
    [add_item], [remove_item], [load_data] and [save_data] calls, with any
    arguments, leads to a duplicate key. *)
Theorem reachable_store_wf (fs : gmap string node) (t : nat) (w : world) :
  wf_files fs ->
  reachable any_command (initial_world fs t) w ->
  dict_wf (stock_data w).
Proof.
  intros Hfs Hreach.
  assert (Hinv : dict_wf (stock_data w) /\ wf_files (files w)).
  { induction Hreach as [|w c _ IH _].
    - split; [constructor|exact Hfs].
    - now apply exec_preserves_wf. }
  exact (proj1 Hinv).
Qed.

Lemma reachable_store_wf_witness :
  dict_wf
    (stock_data
       (exec (Add (PStr "apple") (PInt 2) None)
          (exec (Add (PStr "apple") (PInt 10) None)
             (initial_world ∅ 0%nat)))).
Proof.
  apply (reachable_store_wf ∅ 0%nat).
  - intros file d wr H. rewrite lookup_empty in H. discriminate.
  - apply reach_step; [apply reach_step; [apply reach_start|]|]; exact I.
Defined.

(** ** The demonstration run *)

(** Whether a file can be opened for writing depends on the files only. *)
Lemma open_write_by_files (file : string) (w w' : world) :
  files w = files w' -> fst (open_write file w) = fst (open_write file w').
Proof.
  intros H. unfold open_write. rewrite H.
  destruct (String.eqb file ""); [reflexivity|].
  destruct (files w' !! file) as [[c [|]|]|]; reflexivity.
Qed.

(** X27: in a fresh process whose [inventory.json] can be written,
    [main] returns normally; the store ends as seven apples and five
    bananas, the rejected call and the unknown item leave no trace but the
    warning, the low-stock list is empty, and the file holds the store. *)
Theorem main_on_fresh_process (fs : gmap string node) (t : nat) :
  fst (open_write "inventory.json" (initial_world fs t)) = Return tt ->
  exists w,
    main (initial_world fs t) = (Return tt, w) /\
    stock_data w = [("apple", PInt 7); ("banana", PInt 5)] /\
    stdout w =
      [MsgNotFound (PStr "orange"); MsgAppleStock (PInt 7); MsgLowItems [];
       MsgReportHeader; MsgReportLine "apple" (PInt 7);
       MsgReportLine "banana" (PInt 5); MsgCompleted] /\
    files w =
      <["inventory.json" :=
          RegFile (JsonObject [("apple", PInt 7); ("banana", PInt 5)]) true]>
        fs.
Proof.
  intros Hopen.
  set (d := [("apple", PInt 7); ("banana", PInt 5)]).
  set (w1 := with_stdout
               [MsgNotFound (PStr "orange"); MsgAppleStock (PInt 7);
                MsgLowItems []]
               (with_stock d (initial_world fs t))).
  assert (Hmain : main (initial_world fs t) =
                  (save_data "inventory.json" ;;
                   load_data "inventory.json" ;;
                   print_data ;;
                   print MsgCompleted) w1) by reflexivity.
  assert (Hopen1 : fst (open_write "inventory.json" w1) = Return tt)
    by (rewrite <- Hopen; now apply open_write_by_files).
  rewrite Hmain. unfold bind at 1.
  rewrite (save_data_success "inventory.json" w1 Hopen1).
  unfold bind at 1.
  rewrite (load_data_object "inventory.json" d true)
    by (try discriminate; simpl; apply lookup_insert_eq).
  unfold bind at 1.
  rewrite print_data_spec
    by (subst d; repeat constructor; simpl; intuition discriminate).
  eexists. split; [reflexivity|]. simpl.
  split; [reflexivity|]. split; [reflexivity|].
  apply insert_insert_eq.
Qed.

Lemma main_on_fresh_process_witness :
  exists w,
    main (initial_world ∅ 0%nat) = (Return tt, w) /\
    stock_data w = [("apple", PInt 7); ("banana", PInt 5)] /\
    stdout w =
      [MsgNotFound (PStr "orange"); MsgAppleStock (PInt 7); MsgLowItems [];
       MsgReportHeader; MsgReportLine "apple" (PInt 7);
       MsgReportLine "banana" (PInt 5); MsgCompleted] /\
    files w =
      <["inventory.json" :=
          RegFile (JsonObject [("apple", PInt 7); ("banana", PInt 5)]) true]>
        ∅.
Proof.
  apply (main_on_fresh_process ∅ 0%nat).
  reflexivity.
Defined.
